(** * audio_capture.cc: the loopback capture bridge

    A shallow embedding of the [AudioCapture] class of
    [src/audio_capture.cc]: its members, the real-time render callback
    [HandleAudioInput], and the session operations [StartCapture] and
    [StopCapture].  CoreAudio is an abstract platform whose calls thread a
    platform state; the thread-safe function of node-addon-api is the
    handoff channel. *)

From Stdlib Require Import ZArith Lia.
From Stdlib.Strings Require Import Byte.
From stdpp Require Import base list strings.

Local Open Scope Z_scope.

(** ** Machine integers *)

(** [UInt32] arithmetic wraps modulo 2^32; [size_t] is 64 bits wide on the
    targets CoreAudio exists on. *)
Definition UInt32 := Z.
Definition size_t := Z.
Definition OSStatus := Z.

Definition wrap32 (z : Z) : UInt32 := z mod 2 ^ 32.
Definition wrap_size_t (z : Z) : size_t := z mod 2 ^ 64.

Definition noErr : OSStatus := 0.
Definition sizeof_Float32 : size_t := 4.

(** ** JavaScript values seen through N-API *)

Inductive JsValue :=
| JsUndefined
| JsBoolean (b : bool)
| JsNumber (z : Z)
| JsString (s : string)
| JsFunction (f : nat)
| JsArrayBuffer (bytes : list byte) (byteLength : size_t).

Definition IsFunction (v : JsValue) : bool :=
  match v with JsFunction _ => true | _ => false end.

(** [Napi::CallbackInfo]: the arguments of the call. *)
Definition CallbackInfo := list JsValue.

(** How a native method comes back to JavaScript: a value, or a pending
    exception raised by [ThrowAsJavaScriptException]. *)
Inductive Completion :=
| Returned (v : JsValue)
| Thrown (message : string).

(** ** Raw memory *)

(** [std::make_unique<T[]>(n)] value-initialises its elements. *)
Definition make_unique_uint8 (n : size_t) : list byte :=
  replicate (Z.to_nat n) x00.

Definition make_unique_Float32 (n : size_t) : list byte :=
  replicate (Z.to_nat (n * sizeof_Float32)) x00.

(** [memcpy dest src n] overwrites the first [n] bytes of [dest]. *)
Definition memcpy (dest src : list byte) (n : size_t) : list byte :=
  take (Z.to_nat n) src ++ drop (Z.to_nat n) dest.

(** What a callee leaves in a caller-owned region it was handed a pointer
    to: it can overwrite bytes of the region, it cannot resize it. *)
Definition region_write (region written : list byte) : list byte :=
  take (length region) written ++ drop (length written) region.

(** ** struct AudioData *)

Record AudioData := { data : list byte; size : size_t }.

(** [AudioData(size_t s) : size(s) { data = std::make_unique<uint8_t[]>(s); }] *)
Definition AudioData_new (s : size_t) : AudioData :=
  {| data := make_unique_uint8 s; size := s |}.

(** ** CoreAudio data *)

Definition AudioDeviceID := Z.
Definition AudioUnit := Z.        (* an opaque pointer, 0 is NULL *)
Definition AudioComponent := Z.   (* an opaque pointer, 0 is NULL *)

Record AudioBuffer := {
  mNumberChannels : UInt32;
  mDataByteSize : UInt32;
  mData : list byte               (* the region [mData] points to *)
}.

Record AudioBufferList := {
  mNumberBuffers : UInt32;
  mBuffers0 : AudioBuffer
}.

Inductive AudioFormatID := kAudioFormatLinearPCM.

Definition kAudioFormatFlagIsFloat : Z := Z.shiftl 1 0.
Definition kAudioFormatFlagIsPacked : Z := Z.shiftl 1 3.

Record AudioStreamBasicDescription := {
  mSampleRate : Z;
  mFormatID : AudioFormatID;
  mFormatFlags : Z;
  mBytesPerPacket : UInt32;
  mFramesPerPacket : UInt32;
  mBytesPerFrame : UInt32;
  mChannelsPerFrame : UInt32;
  mBitsPerChannel : UInt32
}.

Inductive OSType :=
| kAudioUnitType_Output
| kAudioUnitSubType_HALOutput
| kAudioUnitManufacturer_Apple.

Record AudioComponentDescription := {
  componentType : OSType;
  componentSubType : OSType;
  componentManufacturer : OSType;
  componentFlags : UInt32;
  componentFlagsMask : UInt32
}.

Inductive AudioObjectPropertySelector :=
| kAudioHardwarePropertyDefaultOutputDevice.

Inductive AudioUnitPropertyID :=
| kAudioOutputUnitProperty_EnableIO
| kAudioOutputUnitProperty_CurrentDevice
| kAudioUnitProperty_StreamFormat
| kAudioOutputUnitProperty_SetInputCallback.

Inductive AudioUnitScope :=
| kAudioUnitScope_Global
| kAudioUnitScope_Input
| kAudioUnitScope_Output.

(** The value behind the [inData] pointer of [AudioUnitSetProperty]. *)
Inductive PropertyData :=
| Data_UInt32 (v : UInt32)
| Data_AudioDeviceID (d : AudioDeviceID)
| Data_StreamFormat (f : AudioStreamBasicDescription)
| Data_AURenderCallbackStruct.    (* inputProc = AudioInputCallback, inputProcRefCon = this *)

(** The CoreAudio calls the class makes.  Each one runs against the
    platform state [P] and returns its status; a call with an out-parameter
    also returns what that parameter holds afterwards. *)
Class CoreAudio (P : Type) := {
  AudioObjectGetPropertyData :
    AudioObjectPropertySelector -> AudioDeviceID -> P -> OSStatus * AudioDeviceID * P;
  AudioComponentFindNext :
    AudioComponentDescription -> P -> AudioComponent * P;
  AudioComponentInstanceNew :
    AudioComponent -> AudioUnit -> P -> OSStatus * AudioUnit * P;
  AudioUnitSetProperty :
    AudioUnit -> AudioUnitPropertyID -> AudioUnitScope -> UInt32 -> PropertyData ->
    P -> OSStatus * P;
  AudioUnitInitialize : AudioUnit -> P -> OSStatus * P;
  AudioOutputUnitStart : AudioUnit -> P -> OSStatus * P;
  AudioOutputUnitStop : AudioUnit -> P -> OSStatus * P;
  AudioUnitUninitialize : AudioUnit -> P -> OSStatus * P;
  AudioComponentInstanceDispose : AudioUnit -> P -> OSStatus * P;
  (* flags, time stamp, bus, frame count, buffer list; the bytes written
     through the buffer's [mData] pointer come back with the status *)
  AudioUnitRender :
    AudioUnit -> Z -> Z -> UInt32 -> UInt32 -> AudioBufferList ->
    P -> OSStatus * list byte * P
}.

(** ** The handoff channel *)

(** Modelled from the spec: the state behind a [Napi::ThreadSafeFunction]
    of node-addon-api, which is not part of the sources; it is the handoff
    channel: the consumer callback it is bound to, whether it has been
    closed, and the buffers enqueued and not yet delivered, oldest first. *)
Record Channel := {
  jsCallback : JsValue;
  released : bool;
  pending : list AudioData
}.

(** The runtime's thread-safe functions, addressed by handle. *)
Abbreviation NapiEnv := (list Channel).

(** The [tsfn] member: a wrapper around a handle; default constructed it
    holds none. *)
Definition ThreadSafeFunction := option nat.

(** [if (tsfn)]: does the wrapper hold a handle? *)
Definition tsfn_bool (t : ThreadSafeFunction) : bool :=
  match t with Some _ => true | None => false end.

Definition Channel_push (item : AudioData) (c : Channel) : Channel :=
  {| jsCallback := jsCallback c; released := released c;
     pending := pending c ++ [item] |}.

Definition Channel_close (c : Channel) : Channel :=
  {| jsCallback := jsCallback c; released := true; pending := pending c |}.

(** Modelled from the spec: [Napi::ThreadSafeFunction::New] of
    node-addon-api is not part of the sources; it opens the handoff
    channel bound to the consumer callback. *)
Definition ThreadSafeFunction_New (fn : JsValue) (env : NapiEnv)
  : ThreadSafeFunction * NapiEnv :=
  (Some (length env),
   env ++ [{| jsCallback := fn; released := false; pending := [] |}]).

(** Modelled from the spec: [Napi::ThreadSafeFunction::NonBlockingCall] of
    node-addon-api is not part of the sources; it is the channel's
    non-blocking [enqueue], which schedules one delivery on an open
    channel and is a no-op once the channel has been closed. *)
Definition ThreadSafeFunction_NonBlockingCall
    (t : ThreadSafeFunction) (item : AudioData) (env : NapiEnv) : NapiEnv :=
  match t with
  | None => env
  | Some h =>
      match env !! h with
      | Some c => if released c then env else <[h := Channel_push item c]> env
      | None => env
      end
  end.

(** Modelled from the spec: [Napi::ThreadSafeFunction::Release] of
    node-addon-api is not part of the sources; it is the channel's
    [close].  The wrapper keeps its handle. *)
Definition ThreadSafeFunction_Release (t : ThreadSafeFunction) (env : NapiEnv)
  : NapiEnv :=
  match t with
  | None => env
  | Some h => alter Channel_close h env
  end.

(** The lambda queued by [HandleAudioInput], run on the consumer's side:
    it wraps the captured [AudioData] in an [ArrayBuffer]. *)
Definition callback (audioData : AudioData) : JsValue :=
  JsArrayBuffer (data audioData) (size audioData).

(** The consumer invocations a channel's queue stands for, in order:
    [jsCallback.Call({arrayBuffer})]. *)
Definition consumer_calls (c : Channel) : list (JsValue * list JsValue) :=
  map (fun d => (jsCallback c, [callback d])) (pending c).

(** ** class AudioCapture *)

Record AudioCapture := {
  outputDevice : AudioDeviceID;
  audioUnit : AudioUnit;
  tsfn : ThreadSafeFunction;
  isCapturing : bool
}.

(** The constructor initialises [isCapturing] only; [outputDevice] and
    [audioUnit] start with whatever the storage holds. *)
Definition AudioCapture_new (outputDevice0 : AudioDeviceID) (audioUnit0 : AudioUnit)
  : AudioCapture :=
  {| outputDevice := outputDevice0; audioUnit := audioUnit0;
     tsfn := None; isCapturing := false |}.

Definition set_outputDevice (d : AudioDeviceID) (c : AudioCapture) : AudioCapture :=
  {| outputDevice := d; audioUnit := audioUnit c;
     tsfn := tsfn c; isCapturing := isCapturing c |}.

Definition set_audioUnit (u : AudioUnit) (c : AudioCapture) : AudioCapture :=
  {| outputDevice := outputDevice c; audioUnit := u;
     tsfn := tsfn c; isCapturing := isCapturing c |}.

Definition set_tsfn (t : ThreadSafeFunction) (c : AudioCapture) : AudioCapture :=
  {| outputDevice := outputDevice c; audioUnit := audioUnit c;
     tsfn := t; isCapturing := isCapturing c |}.

Definition set_isCapturing (b : bool) (c : AudioCapture) : AudioCapture :=
  {| outputDevice := outputDevice c; audioUnit := audioUnit c;
     tsfn := tsfn c; isCapturing := b |}.

(** ** The machine the methods run on *)

Section Capture.

Context {P : Type} {CA : CoreAudio P}.

(** The object, the audio platform and the N-API runtime. *)
Record Machine := {
  this : AudioCapture;
  platform : P;
  env : NapiEnv
}.

(** A method is a state transformer over the machine. *)
Definition M (A : Type) : Type := Machine -> A * Machine.

Definition ret {A} (a : A) : M A := fun m => (a, m).

Definition bind {A B} (c : M A) (k : A -> M B) : M B :=
  fun m => let (a, m') := c m in k a m'.

Notation "'do' x <~ c ;; k" := (bind c (fun x => k))
  (at level 10, x name, c at level 99, k at level 200, only parsing).
Notation "'do' ' pat <~ c ;; k" := (bind c (fun x => match x with pat => k end))
  (at level 10, pat pattern, c at level 99, k at level 200, only parsing).

Definition get_this : M AudioCapture := fun m => (this m, m).

Definition modify_this (f : AudioCapture -> AudioCapture) : M unit :=
  fun m => (tt, {| this := f (this m); platform := platform m; env := env m |}).

(** A CoreAudio call. *)
Definition call {A} (f : P -> A * P) : M A :=
  fun m => let (a, p) := f (platform m) in
           (a, {| this := this m; platform := p; env := env m |}).

(** An N-API call that returns a value, and one that does not. *)
Definition napi {A} (f : NapiEnv -> A * NapiEnv) : M A :=
  fun m => let (a, e) := f (env m) in
           (a, {| this := this m; platform := platform m; env := e |}).

Definition napi_ (f : NapiEnv -> NapiEnv) : M unit :=
  fun m => (tt, {| this := this m; platform := platform m; env := f (env m) |}).

(** [Napi::Error::New(env, msg).ThrowAsJavaScriptException(); return env.Undefined();] *)
Definition throw (msg : string) : M Completion := ret (Thrown msg).

(** [info[i]]; past the end N-API hands out [undefined]. *)
Definition info_at (info : CallbackInfo) (i : nat) : JsValue :=
  default JsUndefined (info !! i).

(** ** HandleAudioInput *)

(** [bufferList.mBuffers[0].mDataByteSize = inNumberFrames * 4;], in
    [UInt32]. *)
Definition scratch_mDataByteSize (inNumberFrames : UInt32) : UInt32 :=
  wrap32 (inNumberFrames * 4).

(** [std::make_unique<Float32[]>(inNumberFrames * 2)]; the product is
    taken in [UInt32]. *)
Definition tempBuffer_new (inNumberFrames : UInt32) : list byte :=
  make_unique_Float32 (wrap32 (inNumberFrames * 2)).

Definition scratch_bufferList (inNumberFrames : UInt32) : AudioBufferList :=
  {| mNumberBuffers := 1;
     mBuffers0 := {| mNumberChannels := 2;
                     mDataByteSize := scratch_mDataByteSize inNumberFrames;
                     mData := tempBuffer_new inNumberFrames |} |}.

(** [size_t bufferSize = inNumberFrames * 2 * sizeof(Float32);]: the left
    product is a [UInt32], the right one a [size_t]. *)
Definition bufferSize_of (inNumberFrames : UInt32) : size_t :=
  wrap_size_t (wrap32 (inNumberFrames * 2) * sizeof_Float32).

Definition HandleAudioInput
    (ioActionFlags inTimeStamp : Z) (inBusNumber inNumberFrames : UInt32)
  : M OSStatus :=
  do self <~ get_this ;;
  let bufferList := scratch_bufferList inNumberFrames in
  do ' (status, written) <~
    call (AudioUnitRender (audioUnit self) ioActionFlags inTimeStamp
            inBusNumber inNumberFrames bufferList) ;;
  let tempBuffer := region_write (tempBuffer_new inNumberFrames) written in
  do _ <~ (if (status =? noErr) && tsfn_bool (tsfn self) then
     let bufferSize := bufferSize_of inNumberFrames in
     let audioData := AudioData_new bufferSize in
     let audioData :=
       {| data := memcpy (data audioData) tempBuffer bufferSize;
          size := size audioData |} in
     napi_ (ThreadSafeFunction_NonBlockingCall (tsfn self) audioData)
   else ret tt) ;;
  ret status.

(** The buffer [HandleAudioInput] has built when it reaches
    [NonBlockingCall], in closed form: the scratch region as the render
    left it, with the size the callback computed
    (see [HandleAudioInput_run]). *)
Definition rendered_AudioData (n : UInt32) (written : list byte) : AudioData :=
  {| data := region_write (tempBuffer_new n) written; size := bufferSize_of n |}.

(** The static trampoline registered with the unit; [inRefCon] is the
    object, [ioData] is not used. *)
Definition AudioInputCallback
    (ioActionFlags inTimeStamp : Z) (inBusNumber inNumberFrames : UInt32)
  : M OSStatus :=
  HandleAudioInput ioActionFlags inTimeStamp inBusNumber inNumberFrames.

(** ** RequestPermission *)

Definition RequestPermission (info : CallbackInfo) : M Completion :=
  ret (Returned (JsBoolean true)).

(** ** StartCapture *)

Definition desc : AudioComponentDescription :=
  {| componentType := kAudioUnitType_Output;
     componentSubType := kAudioUnitSubType_HALOutput;
     componentManufacturer := kAudioUnitManufacturer_Apple;
     componentFlags := 0;
     componentFlagsMask := 0 |}.

Definition streamFormat : AudioStreamBasicDescription :=
  let channelsPerFrame := 2 in
  let bytesPerPacket := wrap32 (channelsPerFrame * sizeof_Float32) in
  {| mSampleRate := 44100;
     mFormatID := kAudioFormatLinearPCM;
     mFormatFlags := Z.lor kAudioFormatFlagIsFloat kAudioFormatFlagIsPacked;
     mBytesPerPacket := bytesPerPacket;
     mFramesPerPacket := 1;
     mBytesPerFrame := bytesPerPacket;
     mChannelsPerFrame := channelsPerFrame;
     mBitsPerChannel := 32 |}.

Definition StartCapture (info : CallbackInfo) : M Completion :=
  do self <~ get_this ;;
  if isCapturing self then throw "Already capturing"
  else if (Z.of_nat (length info) <? 1) || negb (IsFunction (info_at info 0))
  then throw "Callback function required"
  else
    do t <~ napi (ThreadSafeFunction_New (info_at info 0)) ;;
    do _ <~ modify_this (set_tsfn t) ;;
    (* the default output device *)
    do self <~ get_this ;;
    do ' (status, device) <~
      call (AudioObjectGetPropertyData
              kAudioHardwarePropertyDefaultOutputDevice (outputDevice self)) ;;
    do _ <~ modify_this (set_outputDevice device) ;;
    if negb (status =? noErr) then throw "Failed to get default output device"
    else
      (* the audio unit *)
      do component <~ call (AudioComponentFindNext desc) ;;
      do self <~ get_this ;;
      do ' (status, unit) <~
        call (AudioComponentInstanceNew component (audioUnit self)) ;;
      do _ <~ modify_this (set_audioUnit unit) ;;
      if negb (status =? noErr) then throw "Failed to create audio unit"
      else
        do self <~ get_this ;;
        (* disable output *)
        do status <~ call (AudioUnitSetProperty (audioUnit self)
                          kAudioOutputUnitProperty_EnableIO
                          kAudioUnitScope_Output 0 (Data_UInt32 0)) ;;
        (* enable input *)
        do status <~ call (AudioUnitSetProperty (audioUnit self)
                          kAudioOutputUnitProperty_EnableIO
                          kAudioUnitScope_Input 1 (Data_UInt32 1)) ;;
        (* the device *)
        do status <~ call (AudioUnitSetProperty (audioUnit self)
                          kAudioOutputUnitProperty_CurrentDevice
                          kAudioUnitScope_Global 0
                          (Data_AudioDeviceID (outputDevice self))) ;;
        (* the stream format *)
        do status <~ call (AudioUnitSetProperty (audioUnit self)
                          kAudioUnitProperty_StreamFormat
                          kAudioUnitScope_Output 1
                          (Data_StreamFormat streamFormat)) ;;
        (* the callback *)
        do status <~ call (AudioUnitSetProperty (audioUnit self)
                          kAudioOutputUnitProperty_SetInputCallback
                          kAudioUnitScope_Global 0
                          Data_AURenderCallbackStruct) ;;
        (* initialise and start the unit *)
        do status <~ call (AudioUnitInitialize (audioUnit self)) ;;
        do status <~ call (AudioOutputUnitStart (audioUnit self)) ;;
        do _ <~ modify_this (set_isCapturing true) ;;
        ret (Returned JsUndefined).

(** ** StopCapture *)

Definition StopCapture (info : CallbackInfo) : M Completion :=
  do self <~ get_this ;;
  if negb (isCapturing self) then ret (Returned JsUndefined)
  else
    do _ <~ (if negb (audioUnit self =? 0) then
       do _ <~ call (AudioOutputUnitStop (audioUnit self)) ;;
       do _ <~ call (AudioUnitUninitialize (audioUnit self)) ;;
       do _ <~ call (AudioComponentInstanceDispose (audioUnit self)) ;;
       ret tt
     else ret tt) ;;
    do _ <~ (if tsfn_bool (tsfn self) then
       napi_ (ThreadSafeFunction_Release (tsfn self))
     else ret tt) ;;
    do _ <~ modify_this (set_isCapturing false) ;;
    ret (Returned JsUndefined).

(** ** Runs of the render callback *)

(** One firing of the render callback: flags, time stamp, bus, frames. *)
Definition Firing : Type := Z * Z * UInt32 * UInt32.

Definition fire (f : Firing) : M OSStatus :=
  let '(ioActionFlags, inTimeStamp, inBusNumber, inNumberFrames) := f in
  AudioInputCallback ioActionFlags inTimeStamp inBusNumber inNumberFrames.

(** The audio subsystem firing the callback again and again. *)
Fixpoint fire_all (fs : list Firing) (m : Machine) : Machine :=
  match fs with
  | [] => m
  | f :: fs' => fire_all fs' (snd (fire f m))
  end.

(** The object's wrapper holds no channel, or one that is closed. *)
Definition rejecting (m : Machine) : Prop :=
  forall h c, tsfn (this m) = Some h -> env m !! h = Some c -> released c = true.

(** The buffers a run of firings builds for the channel, in firing order:
    one for each firing whose render succeeds, none for the others. *)
Fixpoint rendered_by (unit : AudioUnit) (fs : list Firing) (p : P)
  : list AudioData :=
  match fs with
  | [] => []
  | f :: fs' =>
      let '(ioActionFlags, inTimeStamp, inBusNumber, inNumberFrames) := f in
      let '(status, written, p') :=
        AudioUnitRender unit ioActionFlags inTimeStamp inBusNumber
          inNumberFrames (scratch_bufferList inNumberFrames) p in
      (if status =? noErr then [rendered_AudioData inNumberFrames written] else [])
      ++ rendered_by unit fs' p'
  end.

(** ** The life of an object *)

(** What can happen to an object between its construction and its
    destruction: JavaScript calls one of the three instance methods, or
    the audio subsystem fires the render callback. *)
Inductive Event :=
| Call_requestPermission (info : CallbackInfo)
| Call_startCapture (info : CallbackInfo)
| Call_stopCapture (info : CallbackInfo)
| Render (f : Firing).

Definition after_event (e : Event) (m : Machine) : Machine :=
  match e with
  | Call_requestPermission info => snd (RequestPermission info m)
  | Call_startCapture info => snd (StartCapture info m)
  | Call_stopCapture info => snd (StopCapture info m)
  | Render f => snd (fire f m)
  end.

Fixpoint after_events (es : list Event) (m : Machine) : Machine :=
  match es with
  | [] => m
  | e :: es' => after_events es' (after_event e m)
  end.

(** A capturing session owns an open channel bound to a function. *)
Definition capturing_channel_open (m : Machine) : Prop :=
  isCapturing (this m) = true ->
  exists h c, tsfn (this m) = Some h /\ env m !! h = Some c /\
              released c = false /\ IsFunction (jsCallback c) = true.

(** Channel [h] is open and bound to [cb], and no capturing session
    holds it. *)
Definition stranded (h : nat) (cb : JsValue) (m : Machine) : Prop :=
  (exists c, env m !! h = Some c /\ released c = false /\ jsCallback c = cb) /\
  (tsfn (this m) = Some h -> isCapturing (this m) = false).

End Capture.

Arguments Machine P : clear implicits.
Arguments M P A : clear implicits.
Arguments desc : simpl never.
Arguments streamFormat : simpl never.

(** ** A scripted platform *)

(** A stand-in for CoreAudio that answers every call from a fixed script
    and logs the calls it receives. *)
Record Script := {
  device_status : OSStatus;
  device_id : AudioDeviceID;
  component_found : AudioComponent;
  instance_status : OSStatus;
  instance_unit : AudioUnit;
  property_status : AudioUnitPropertyID -> AudioUnitScope -> OSStatus;
  initialize_status : OSStatus;
  start_status : OSStatus;
  teardown_status : OSStatus;
  render_status : OSStatus;
  render_bytes : UInt32 -> list byte
}.

Definition scripted (sc : Script) : CoreAudio (list string) := {|
  AudioObjectGetPropertyData _ _ log :=
    (device_status sc, device_id sc, log ++ ["AudioObjectGetPropertyData"%string]);
  AudioComponentFindNext _ log :=
    (component_found sc, log ++ ["AudioComponentFindNext"%string]);
  AudioComponentInstanceNew _ _ log :=
    (instance_status sc, instance_unit sc, log ++ ["AudioComponentInstanceNew"%string]);
  AudioUnitSetProperty _ prop scope _ _ log :=
    (property_status sc prop scope, log ++ ["AudioUnitSetProperty"%string]);
  AudioUnitInitialize _ log :=
    (initialize_status sc, log ++ ["AudioUnitInitialize"%string]);
  AudioOutputUnitStart _ log :=
    (start_status sc, log ++ ["AudioOutputUnitStart"%string]);
  AudioOutputUnitStop _ log :=
    (teardown_status sc, log ++ ["AudioOutputUnitStop"%string]);
  AudioUnitUninitialize _ log :=
    (teardown_status sc, log ++ ["AudioUnitUninitialize"%string]);
  AudioComponentInstanceDispose _ log :=
    (teardown_status sc, log ++ ["AudioComponentInstanceDispose"%string]);
  AudioUnitRender _ _ _ _ frames _ log :=
    (render_status sc, render_bytes sc frames, log ++ ["AudioUnitRender"%string])
|}.

(** Every call succeeds; a render fills each frame with the bytes 1..8. *)
Definition frame_bytes : list byte := [x01; x02; x03; x04; x05; x06; x07; x08].

Definition healthy : Script := {|
  device_status := noErr;
  device_id := 42;
  component_found := 7;
  instance_status := noErr;
  instance_unit := 1000;
  property_status _ _ := noErr;
  initialize_status := noErr;
  start_status := noErr;
  teardown_status := noErr;
  render_status := noErr;
  render_bytes frames := mjoin (replicate (Z.to_nat frames) frame_bytes)
|}.

(** Every call succeeds; a render leaves the scratch region as it is. *)
Definition silent : Script := {|
  device_status := noErr;
  device_id := 42;
  component_found := 7;
  instance_status := noErr;
  instance_unit := 1000;
  property_status _ _ := noErr;
  initialize_status := noErr;
  start_status := noErr;
  teardown_status := noErr;
  render_status := noErr;
  render_bytes frames := []
|}.

(** No default output device: the query fails with [kAudioHardwareUnspecifiedError]. *)
Definition no_device : Script := {|
  device_status := 2003332927;
  device_id := 0;
  component_found := 7;
  instance_status := noErr;
  instance_unit := 1000;
  property_status _ _ := noErr;
  initialize_status := noErr;
  start_status := noErr;
  teardown_status := noErr;
  render_status := noErr;
  render_bytes frames := []
|}.

(** The unit is created, then every negotiation step, the initialisation
    and the start fail with [kAudioUnitErr_InvalidProperty] and friends. *)
Definition failing_negotiation : Script := {|
  device_status := noErr;
  device_id := 42;
  component_found := 7;
  instance_status := noErr;
  instance_unit := 1000;
  property_status _ _ := -10879;
  initialize_status := -10875;
  start_status := -10867;
  teardown_status := noErr;
  render_status := noErr;
  render_bytes frames := []
|}.

(** The device is there but no unit can be created. *)
Definition no_unit : Script := {|
  device_status := noErr;
  device_id := 42;
  component_found := 0;
  instance_status := -3000;
  instance_unit := 0;
  property_status _ _ := noErr;
  initialize_status := noErr;
  start_status := noErr;
  teardown_status := noErr;
  render_status := noErr;
  render_bytes frames := []
|}.


(** Renders fail with [kAudioUnitErr_CannotDoInCurrentContext]. *)
Definition failing_render : Script := {|
  device_status := noErr;
  device_id := 42;
  component_found := 7;
  instance_status := noErr;
  instance_unit := 1000;
  property_status _ _ := noErr;
  initialize_status := noErr;
  start_status := noErr;
  teardown_status := noErr;
  render_status := -10863;
  render_bytes frames := []
|}.

(** A freshly constructed object on a quiet machine. *)
Definition fresh_session : Machine (list string) :=
  {| this := AudioCapture_new 0 0; platform := []; env := [] |}.

(** The machine after a successful [startCapture(f)] on [healthy]. *)
Definition live_session : Machine (list string) :=
  snd (StartCapture (CA := scripted healthy) [JsFunction 0] fresh_session).

(** * Properties *)

Section Properties.

Context {P : Type} {CA : CoreAudio P}.

Implicit Types (m : Machine P) (info : CallbackInfo).

(** Unfolds the state transformers down to the platform calls. *)
Ltac unfold_M :=
  unfold bind, ret, throw, get_this, modify_this, call, napi, napi_.

(** Names the outcome of the next platform call. *)
Ltac platform_step :=
  match goal with
  | |- context [let (_, _) := ?c in _] =>
      lazymatch c with
      | (if _ then _ else _) => fail
      | context [let (_, _) := _ in _] => fail
      | _ => destruct c as [? ?] eqn:?
      end
  end.

(** ** The handoff channel *)

Lemma NonBlockingCall_released (h : nat) (item : AudioData) (e : NapiEnv) :
  (forall c, e !! h = Some c -> released c = true) ->
  ThreadSafeFunction_NonBlockingCall (Some h) item e = e.
Proof.
  intros Hclosed. unfold ThreadSafeFunction_NonBlockingCall.
  destruct (e !! h) as [c|] eqn:Hc; [|reflexivity].
  now rewrite (Hclosed c eq_refl).
Qed.


Lemma New_opens (fn : JsValue) (e : NapiEnv) :
  snd (ThreadSafeFunction_New fn e) !! length e
  = Some {| jsCallback := fn; released := false; pending := [] |}.
Proof.
  cbn. rewrite lookup_app_r by lia. now rewrite Nat.sub_diag.
Qed.

(** ** Sizes in the render callback *)

Lemma wrap32_small (z : Z) : 0 <= z < 2 ^ 32 -> wrap32 z = z.
Proof. intros Hz. unfold wrap32. now apply Z.mod_small. Qed.

Lemma bufferSize_of_small (n : UInt32) :
  0 <= n < 2 ^ 31 -> bufferSize_of n = n * 8.
Proof.
  intros Hn. unfold bufferSize_of, wrap_size_t, sizeof_Float32.
  rewrite wrap32_small by lia. rewrite Z.mod_small; lia.
Qed.

Lemma length_tempBuffer_new (n : UInt32) :
  Z.of_nat (length (tempBuffer_new n)) = wrap32 (n * 2) * sizeof_Float32.
Proof.
  unfold tempBuffer_new, make_unique_Float32. rewrite length_replicate.
  apply Z2Nat.id. unfold wrap32, sizeof_Float32.
  pose proof (Z.mod_pos_bound (n * 2) (2 ^ 32)). lia.
Qed.

Lemma length_region_write (region written : list byte) :
  length (region_write region written) = length region.
Proof.
  unfold region_write. rewrite length_app, length_take, length_drop. lia.
Qed.

Lemma region_write_full (region written : list byte) :
  length written = length region -> region_write region written = written.
Proof.
  intros Hlen. unfold region_write.
  rewrite <- Hlen, firstn_all, drop_ge by lia. apply app_nil_r.
Qed.

Lemma bufferSize_of_tempBuffer (n : UInt32) :
  bufferSize_of n = Z.of_nat (length (tempBuffer_new n)).
Proof.
  rewrite length_tempBuffer_new. unfold bufferSize_of, wrap_size_t, wrap32, sizeof_Float32.
  pose proof (Z.mod_pos_bound (n * 2) (2 ^ 32)).
  apply Z.mod_small. lia.
Qed.

(** Copying a whole region into a fresh buffer of the same size yields the
    region. *)
Lemma memcpy_whole (dest src : list byte) (n : size_t) :
  n = Z.of_nat (length src) -> length dest = length src ->
  memcpy dest src n = src.
Proof.
  intros -> Hlen. unfold memcpy. rewrite Nat2Z.id.
  rewrite firstn_all, drop_ge by lia. apply app_nil_r.
Qed.

Lemma HandleAudioInput_run flags ts bus n m :
  HandleAudioInput flags ts bus n m =
  let '(status, written, p) :=
    AudioUnitRender (audioUnit (this m)) flags ts bus n
      (scratch_bufferList n) (platform m) in
  (status,
   {| this := this m; platform := p;
      env := if (status =? noErr) && tsfn_bool (tsfn (this m))
             then ThreadSafeFunction_NonBlockingCall (tsfn (this m))
                    (rendered_AudioData n written) (env m)
             else env m |}).
Proof.
  unfold HandleAudioInput. unfold_M. cbn.
  destruct (AudioUnitRender _ _ _ _ _ _ _) as [[status written] p]. cbn.
  destruct ((status =? noErr) && tsfn_bool (tsfn (this m))); [|reflexivity].
  cbn. unfold rendered_AudioData. do 4 f_equal.
  apply memcpy_whole.
  - rewrite length_region_write. apply bufferSize_of_tempBuffer.
  - rewrite length_region_write. unfold make_unique_uint8.
    rewrite length_replicate, bufferSize_of_tempBuffer. apply Nat2Z.id.
Qed.

(** ** The render callback *)

(** C8: the callback returns the status of the render step as it is, and
    the platform is left exactly as one render call leaves it (the render
    is not tried again), whether or not a buffer was enqueued. *)
Theorem HandleAudioInput_returns_render_status flags ts bus n m :
  let render :=
    AudioUnitRender (audioUnit (this m)) flags ts bus n
      (scratch_bufferList n) (platform m) in
  fst (HandleAudioInput flags ts bus n m) = fst (fst render) /\
  platform (snd (HandleAudioInput flags ts bus n m)) = snd render.
Proof.
  rewrite HandleAudioInput_run. cbn.
  destruct (AudioUnitRender _ _ _ _ _ _ _) as [[status written] p].
  split; reflexivity.
Qed.

(** C9: when the render step fails, the callback touches neither the
    N-API runtime (no buffer is built or enqueued on any channel, nothing
    else is sent to the consumer) nor the object. *)
Theorem HandleAudioInput_failed_render_drops flags ts bus n m :
  fst (fst (AudioUnitRender (audioUnit (this m)) flags ts bus n
              (scratch_bufferList n) (platform m))) <> noErr ->
  env (snd (HandleAudioInput flags ts bus n m)) = env m /\
  this (snd (HandleAudioInput flags ts bus n m)) = this m.
Proof.
  rewrite HandleAudioInput_run.
  destruct (AudioUnitRender _ _ _ _ _ _ _) as [[status written] p]. cbn.
  intros Hfail. apply Z.eqb_neq in Hfail. rewrite Hfail. split; reflexivity.
Qed.

(** What a successful render enqueues on an open channel, for any frame
    count. *)
Lemma HandleAudioInput_enqueues flags ts bus n m h c :
  fst (fst (AudioUnitRender (audioUnit (this m)) flags ts bus n
              (scratch_bufferList n) (platform m))) = noErr ->
  tsfn (this m) = Some h ->
  env m !! h = Some c ->
  released c = false ->
  env (snd (HandleAudioInput flags ts bus n m)) =
  <[h := Channel_push
           (rendered_AudioData n
              (snd (fst (AudioUnitRender (audioUnit (this m)) flags ts bus n
                           (scratch_bufferList n) (platform m))))) c]> (env m).
Proof.
  rewrite HandleAudioInput_run.
  destruct (AudioUnitRender _ _ _ _ _ _ _) as [[status written] p]. cbn.
  intros -> Ht Hc Hopen. rewrite Ht. cbn. now rewrite Hc, Hopen.
Qed.

(** C4, amended: when the render step succeeds and the channel is open,
    exactly one buffer is appended to the channel's queue; for a frame
    count below 2^31 its byte length is [frameCount * 8], it holds that
    many bytes, and they are the scratch region as the render left it. *)
Theorem HandleAudioInput_delivers_frame flags ts bus n m h c :
  0 <= n < 2 ^ 31 ->
  fst (fst (AudioUnitRender (audioUnit (this m)) flags ts bus n
              (scratch_bufferList n) (platform m))) = noErr ->
  tsfn (this m) = Some h ->
  env m !! h = Some c ->
  released c = false ->
  exists audioData,
    env (snd (HandleAudioInput flags ts bus n m)) !! h
      = Some (Channel_push audioData c) /\
    callback audioData = JsArrayBuffer (data audioData) (n * 2 * 4) /\
    Z.of_nat (length (data audioData)) = n * 8 /\
    (let written :=
       snd (fst (AudioUnitRender (audioUnit (this m)) flags ts bus n
                   (scratch_bufferList n) (platform m))) in
     data audioData = region_write (tempBuffer_new n) written /\
     (Z.of_nat (length written) = n * 8 -> data audioData = written)).
Proof.
  intros Hn Hok Ht Hc Hopen.
  eexists. split; [|split; [|split; [|split]]].
  - rewrite (HandleAudioInput_enqueues flags ts bus n m h c) by assumption.
    apply list_lookup_insert_eq. eapply lookup_lt_Some, Hc.
  - unfold callback. cbn. rewrite bufferSize_of_small by assumption.
    f_equal. lia.
  - cbn. rewrite length_region_write, <- bufferSize_of_tempBuffer.
    now apply bufferSize_of_small.
  - reflexivity.
  - intros Hfull. cbn. apply region_write_full.
    apply Nat2Z.inj. rewrite Hfull, <- bufferSize_of_tempBuffer.
    symmetry. now apply bufferSize_of_small.
Qed.

(** ** StartCapture *)

(** C5: a [startCapture] on a capturing session throws "Already
    capturing" and leaves the object, the platform and the runtime as
    they were. *)
Theorem StartCapture_already_capturing info m :
  isCapturing (this m) = true ->
  StartCapture info m = (Thrown "Already capturing", m).
Proof.
  intros Hcap. unfold StartCapture. unfold_M. now rewrite Hcap.
Qed.

(** C10: the capturing test comes before the argument test: on a
    capturing session the error is "Already capturing" whatever the
    arguments are, and "Callback function required" is only ever thrown
    from an idle session. *)
Theorem StartCapture_state_checked_first info m :
  (isCapturing (this m) = true ->
   fst (StartCapture info m) = Thrown "Already capturing") /\
  (fst (StartCapture info m) = Thrown "Callback function required" ->
   isCapturing (this m) = false).
Proof.
  split.
  - intros Hcap. unfold StartCapture. unfold_M. now rewrite Hcap.
  - destruct (isCapturing (this m)) eqn:Hcap; [|reflexivity].
    unfold StartCapture. unfold_M. rewrite Hcap. cbn. discriminate.
Qed.

(** ** StopCapture *)

(** C7: [stopCapture] on an idle session changes nothing and returns
    [undefined]; in every state it returns [undefined] and never throws. *)
Theorem StopCapture_idle_noop_never_fails info m :
  (isCapturing (this m) = false ->
   StopCapture info m = (Returned JsUndefined, m)) /\
  fst (StopCapture info m) = Returned JsUndefined.
Proof.
  unfold StopCapture. unfold_M.
  destruct (isCapturing (this m)) eqn:Hcap; cbn.
  - split; [discriminate|].
    destruct (audioUnit (this m) =? 0); cbn; repeat platform_step; cbn;
      destruct (tsfn_bool (tsfn (this m))); reflexivity.
  - split; reflexivity.
Qed.

(** ** After StopCapture *)

Lemma StopCapture_run info m :
  isCapturing (this m) = true ->
  this (snd (StopCapture info m)) = set_isCapturing false (this m) /\
  env (snd (StopCapture info m)) =
    if tsfn_bool (tsfn (this m))
    then ThreadSafeFunction_Release (tsfn (this m)) (env m)
    else env m.
Proof.
  intros Hcap. unfold StopCapture. unfold_M. rewrite Hcap. cbn.
  destruct (tsfn_bool (tsfn (this m)));
    destruct (audioUnit (this m) =? 0); cbn; repeat platform_step; cbn;
    split; reflexivity.
Qed.

Lemma fire_rejected (f : Firing) m :
  rejecting m ->
  env (snd (fire f m)) = env m /\ this (snd (fire f m)) = this m.
Proof.
  intros Hrej. destruct f as [[[flags ts] bus] n].
  unfold fire, AudioInputCallback. rewrite HandleAudioInput_run.
  destruct (AudioUnitRender _ _ _ _ _ _ _) as [[status written] p]. cbn.
  split; [|reflexivity].
  destruct (status =? noErr); [|reflexivity].
  destruct (tsfn (this m)) as [h|] eqn:Ht; [|reflexivity]. cbn.
  apply NonBlockingCall_released. intros c Hc. now apply (Hrej h c).
Qed.

Lemma fire_all_rejected (fs : list Firing) m :
  rejecting m ->
  env (fire_all fs m) = env m /\ this (fire_all fs m) = this m.
Proof.
  revert m. induction fs as [|f fs IH]; intros m Hrej; [split; reflexivity|].
  cbn [fire_all]. destruct (fire_rejected f m Hrej) as [He Ht].
  destruct (IH (snd (fire f m))) as [He' Ht'].
  - intros h c. rewrite He, Ht. apply Hrej.
  - split; congruence.
Qed.




(** On an idle session whose wrapper holds no open channel (a new object,
    or one that has been stopped) [stopCapture] and any later firings
    enqueue nothing either. *)
Lemma no_enqueue_after_idle_StopCapture info (fs : list Firing) m :
  isCapturing (this m) = false ->
  rejecting m ->
  env (fire_all fs (snd (StopCapture info m))) = env m.
Proof.
  intros Hidle Hrej. unfold StopCapture. unfold_M. rewrite Hidle. cbn.
  now apply fire_all_rejected.
Qed.

(** ** Failures of StartCapture *)

Lemma callback_argument_accepted info (fn : nat) :
  info !! 0%nat = Some (JsFunction fn) ->
  (Z.of_nat (length info) <? 1) || negb (IsFunction (info_at info 0)) = false
  /\ info_at info 0 = JsFunction fn.
Proof.
  intros Harg. unfold info_at. rewrite Harg. cbn.
  destruct info as [|v info']; [discriminate|].
  split; [|reflexivity]. rewrite orb_false_r. apply Z.ltb_ge.
  cbn [length]. lia.
Qed.

(** C1: every [startCapture] that throws after its argument was accepted
    (the device could not be resolved, or the unit could not be created)
    leaves the session idle, but the thread-safe function created for the
    consumer callback is still held by the object and still open in the
    runtime. *)
Theorem StartCapture_failure_keeps_channel info m (fn : nat) (msg : string) :
  isCapturing (this m) = false ->
  info !! 0%nat = Some (JsFunction fn) ->
  fst (StartCapture info m) = Thrown msg ->
  (msg = "Failed to get default output device"%string \/
   msg = "Failed to create audio unit"%string) /\
  isCapturing (this (snd (StartCapture info m))) = false /\
  tsfn (this (snd (StartCapture info m))) = Some (length (env m)) /\
  env (snd (StartCapture info m)) !! length (env m)
    = Some {| jsCallback := JsFunction fn; released := false; pending := [] |}.
Proof.
  intros Hidle Harg.
  destruct (callback_argument_accepted info fn Harg) as [Hok Hfn].
  pose proof (New_opens (JsFunction fn) (env m)) as Hopen.
  unfold StartCapture. unfold_M. rewrite Hidle, Hok, Hfn. cbn.
  destruct (AudioObjectGetPropertyData _ _ _) as [[status device] p]. cbn.
  destruct (status =? noErr); cbn.
  - destruct (AudioComponentFindNext _ _) as [component p1]. cbn.
    destruct (AudioComponentInstanceNew _ _ _) as [[status' unit] p2]. cbn.
    destruct (status' =? noErr); cbn.
    + repeat platform_step. cbn. discriminate.
    + intros [= <-]. repeat split; [now right|assumption|exact Hopen].
  - intros [= <-]. repeat split; [now left|assumption|exact Hopen].
Qed.

(** The device query failing is one way to get there. *)
Lemma StartCapture_device_failure info m (fn : nat) :
  isCapturing (this m) = false ->
  info !! 0%nat = Some (JsFunction fn) ->
  fst (fst (AudioObjectGetPropertyData kAudioHardwarePropertyDefaultOutputDevice
              (outputDevice (this m)) (platform m))) <> noErr ->
  fst (StartCapture info m) = Thrown "Failed to get default output device".
Proof.
  intros Hidle Harg Hfail.
  destruct (callback_argument_accepted info fn Harg) as [Hok Hfn].
  unfold StartCapture. unfold_M. rewrite Hidle, Hok, Hfn. cbn.
  destruct (AudioObjectGetPropertyData _ _ _) as [[status device] p]. cbn in *.
  apply Z.eqb_neq in Hfail. now rewrite Hfail.
Qed.

(** Every throwing [startCapture] leaves an idle session idle. *)
Lemma StartCapture_failure_stays_idle info m (msg : string) :
  isCapturing (this m) = false ->
  fst (StartCapture info m) = Thrown msg ->
  isCapturing (this (snd (StartCapture info m))) = false.
Proof.
  intros Hidle. unfold StartCapture. unfold_M. rewrite Hidle.
  destruct ((Z.of_nat (length info) <? 1) || negb (IsFunction (info_at info 0)));
    cbn; [intros _; assumption|].
  destruct (AudioObjectGetPropertyData _ _ _) as [[status device] p]. cbn.
  destruct (status =? noErr); cbn; [|intros _; assumption].
  destruct (AudioComponentFindNext _ _) as [component p1]. cbn.
  destruct (AudioComponentInstanceNew _ _ _) as [[status' unit] p2]. cbn.
  destruct (status' =? noErr); cbn; [|intros _; assumption].
  repeat platform_step. cbn. discriminate.
Qed.

(** C2: once the device is resolved and the unit created, [startCapture]
    returns [undefined] with the session capturing, whatever statuses the
    seven later steps (disable output, enable input, bind device, set
    format, register callback, initialise, start) come back with. *)
Theorem StartCapture_ignores_negotiation_status info m (fn : nat) :
  isCapturing (this m) = false ->
  info !! 0%nat = Some (JsFunction fn) ->
  let '(status1, device, p1) :=
    AudioObjectGetPropertyData kAudioHardwarePropertyDefaultOutputDevice
      (outputDevice (this m)) (platform m) in
  let '(component, p2) := AudioComponentFindNext desc p1 in
  let '(status2, unit, p3) :=
    AudioComponentInstanceNew component (audioUnit (this m)) p2 in
  status1 = noErr ->
  status2 = noErr ->
  fst (StartCapture info m) = Returned JsUndefined /\
  isCapturing (this (snd (StartCapture info m))) = true.
Proof.
  intros Hidle Harg.
  destruct (callback_argument_accepted info fn Harg) as [Hok Hfn].
  unfold StartCapture. unfold_M. rewrite Hidle, Hok, Hfn. cbn.
  destruct (AudioObjectGetPropertyData _ _ _) as [[status1 device] p1]. cbn.
  destruct (AudioComponentFindNext _ _) as [component p2] eqn:Hfind.
  destruct (AudioComponentInstanceNew _ _ _) as [[status2 unit] p3] eqn:Hnew.
  intros -> ->. cbn. rewrite Hfind. cbn. rewrite Hnew. cbn.
  repeat platform_step. cbn. split; reflexivity.
Qed.

(** ** The scratch buffer and the stream format *)

(** C3: the scratch region holds [frameCount * 2] floats, two per frame
    as the negotiated format has it, but the byte size the buffer list
    declares is [frameCount * 4], not the [frameCount * 8] of the
    format's 8 bytes per frame. *)
Theorem scratch_buffer_declares_half_the_region (n : UInt32) :
  0 < n < 2 ^ 30 ->
  mBytesPerFrame streamFormat = 8 /\
  Z.of_nat (length (mData (mBuffers0 (scratch_bufferList n))))
    = n * 2 * sizeof_Float32 /\
  mDataByteSize (mBuffers0 (scratch_bufferList n)) = n * 4 /\
  mDataByteSize (mBuffers0 (scratch_bufferList n))
    <> n * mBytesPerFrame streamFormat.
Proof.
  intros Hn.
  assert (Hdecl : mDataByteSize (mBuffers0 (scratch_bufferList n)) = n * 4).
  { cbn. unfold scratch_mDataByteSize. apply wrap32_small. lia. }
  assert (Hfmt : mBytesPerFrame streamFormat = 8) by reflexivity.
  split; [exact Hfmt|]. split; [|split; [exact Hdecl|]].
  - cbn [scratch_bufferList mBuffers0 mData].
    rewrite length_tempBuffer_new, wrap32_small by lia. reflexivity.
  - rewrite Hdecl, Hfmt. lia.
Qed.

(** * Further properties *)

(** ** Sizes for every frame count *)

Lemma wrap32_double (n : Z) : wrap32 (n * 2) = 2 * (n mod 2 ^ 31).
Proof.
  unfold wrap32. rewrite (Z.mul_comm n 2).
  change (2 ^ 32) with (2 * 2 ^ 31). apply Zmult_mod_distr_l.
Qed.

Lemma bufferSize_of_closed (n : UInt32) : bufferSize_of n = 8 * (n mod 2 ^ 31).
Proof.
  unfold bufferSize_of, wrap_size_t, sizeof_Float32. rewrite wrap32_double.
  pose proof (Z.mod_pos_bound n (2 ^ 31)). rewrite Z.mod_small; lia.
Qed.

(** X1: whatever frame count the callback is given, the byte size it
    declares to the render step is never larger than the scratch region it
    allocated, and the region is exactly as long as the copy that follows
    reads. *)
Theorem scratch_declared_within_region (n : UInt32) :
  0 <= mDataByteSize (mBuffers0 (scratch_bufferList n))
    <= Z.of_nat (length (mData (mBuffers0 (scratch_bufferList n)))) /\
  Z.of_nat (length (mData (mBuffers0 (scratch_bufferList n)))) = bufferSize_of n.
Proof.
  cbn [scratch_bufferList mBuffers0 mData mDataByteSize].
  rewrite <- bufferSize_of_tempBuffer, bufferSize_of_closed. split; [|reflexivity].
  unfold scratch_mDataByteSize, wrap32.
  replace (n * 4) with (2 * (n * 2)) by lia.
  rewrite <- Zmult_mod_idemp_r. fold (wrap32 (n * 2)). rewrite wrap32_double.
  pose proof (Z.mod_pos_bound n (2 ^ 31)).
  pose proof (Z.mod_pos_bound (2 * (2 * (n mod 2 ^ 31))) (2 ^ 32)).
  pose proof (Z.mod_le (2 * (2 * (n mod 2 ^ 31))) (2 ^ 32)). lia.
Qed.

(** X2: for every frame count, a successful render on an open channel
    enqueues one buffer whose byte length is 8 * (frameCount mod 2^31), a
    multiple of 8 below 2^34, and the buffer holds exactly that many
    bytes. *)
Theorem HandleAudioInput_buffer_size flags ts bus n m h c :
  fst (fst (AudioUnitRender (audioUnit (this m)) flags ts bus n
              (scratch_bufferList n) (platform m))) = noErr ->
  tsfn (this m) = Some h ->
  env m !! h = Some c ->
  released c = false ->
  exists audioData,
    env (snd (HandleAudioInput flags ts bus n m)) !! h
      = Some (Channel_push audioData c) /\
    size audioData = 8 * (n mod 2 ^ 31) /\
    size audioData mod 8 = 0 /\
    0 <= size audioData < 2 ^ 34 /\
    Z.of_nat (length (data audioData)) = size audioData.
Proof.
  intros Hok Ht Hc Hopen. eexists. split; [|split; [|split; [|split]]].
  - rewrite (HandleAudioInput_enqueues flags ts bus n m h c) by assumption.
    apply list_lookup_insert_eq. eapply lookup_lt_Some, Hc.
  - cbn. apply bufferSize_of_closed.
  - cbn. rewrite bufferSize_of_closed, Z.mul_comm. apply Z_mod_mult.
  - cbn. rewrite bufferSize_of_closed.
    pose proof (Z.mod_pos_bound n (2 ^ 31)). lia.
  - cbn. rewrite length_region_write. symmetry. apply bufferSize_of_tempBuffer.
Qed.

(** ** What the callback leaves alone *)

Lemma NonBlockingCall_effect (t : ThreadSafeFunction) (item : AudioData)
    (e : NapiEnv) :
  length (ThreadSafeFunction_NonBlockingCall t item e) = length e /\
  (forall h : nat, t <> Some h ->
     ThreadSafeFunction_NonBlockingCall t item e !! h = e !! h) /\
  (forall (h : nat) c, e !! h = Some c ->
     exists c' items,
       ThreadSafeFunction_NonBlockingCall t item e !! h = Some c' /\
       jsCallback c' = jsCallback c /\ released c' = released c /\
       pending c' = pending c ++ items).
Proof.
  assert (Hsame : forall (h : nat) c, e !! h = Some c ->
            exists c' items, e !! h = Some c' /\
              jsCallback c' = jsCallback c /\ released c' = released c /\
              pending c' = pending c ++ items).
  { intros h c Hc. exists c, []. now rewrite app_nil_r. }
  unfold ThreadSafeFunction_NonBlockingCall.
  destruct t as [h0|]; [|repeat split; solve [reflexivity | exact Hsame]].
  destruct (e !! h0) as [c0|] eqn:Hc0;
    [|repeat split; solve [reflexivity | exact Hsame]].
  destruct (released c0) eqn:Hrel;
    [repeat split; solve [reflexivity | exact Hsame]|].
  split; [apply length_insert|]. split.
  - intros h Hne. apply list_lookup_insert_ne. congruence.
  - intros h c Hc. destruct (decide (h0 = h)) as [->|Hne].
    + assert (c0 = c) as -> by congruence.
      exists (Channel_push item c), [item].
      split; [|repeat split].
      apply list_lookup_insert_eq. eapply lookup_lt_Some, Hc.
    + exists c, []. rewrite list_lookup_insert_ne by assumption.
      now rewrite app_nil_r.
Qed.

(** X3: a firing of the callback never changes the object, never adds or
    removes a channel, leaves every channel other than the object's own as
    it was, and on any channel only ever appends to the queue: the bound
    callback, the closed flag and the buffers already queued stay. *)
Theorem HandleAudioInput_touches_only_its_queue flags ts bus n m :
  this (snd (HandleAudioInput flags ts bus n m)) = this m /\
  length (env (snd (HandleAudioInput flags ts bus n m))) = length (env m) /\
  (forall h : nat, tsfn (this m) <> Some h ->
     env (snd (HandleAudioInput flags ts bus n m)) !! h = env m !! h) /\
  (forall (h : nat) c, env m !! h = Some c ->
     exists c' items,
       env (snd (HandleAudioInput flags ts bus n m)) !! h = Some c' /\
       jsCallback c' = jsCallback c /\ released c' = released c /\
       pending c' = pending c ++ items).
Proof.
  rewrite HandleAudioInput_run.
  destruct (AudioUnitRender _ _ _ _ _ _ _) as [[status written] p]. cbn.
  split; [reflexivity|].
  destruct ((status =? noErr) && tsfn_bool (tsfn (this m))).
  - apply NonBlockingCall_effect.
  - split; [reflexivity|]. split; [reflexivity|].
    intros h c Hc. exists c, []. now rewrite app_nil_r.
Qed.

(** A firing seen from the object's life: the object and the number of
    channels stay, and a channel keeps its callback and its closed flag. *)
Lemma fire_keeps (f : Firing) m :
  this (snd (fire f m)) = this m /\
  length (env (snd (fire f m))) = length (env m) /\
  (forall (h : nat) c, env m !! h = Some c ->
     exists c', env (snd (fire f m)) !! h = Some c' /\
       jsCallback c' = jsCallback c /\ released c' = released c).
Proof.
  destruct f as [[[flags ts] bus] n]. unfold fire, AudioInputCallback.
  rewrite HandleAudioInput_run.
  destruct (AudioUnitRender _ _ _ _ _ _ _) as [[status written] p]. cbn.
  split; [reflexivity|].
  destruct ((status =? noErr) && tsfn_bool (tsfn (this m))).
  - destruct (NonBlockingCall_effect (tsfn (this m))
                (rendered_AudioData n written) (env m)) as (Hlen & _ & Hkeep).
    split; [exact Hlen|]. intros h c Hc.
    destruct (Hkeep h c Hc) as (c' & items & Hc' & Hcb & Hrel & _).
    exists c'. repeat split; assumption.
  - split; [reflexivity|]. intros h c Hc. exists c. repeat split; assumption.
Qed.

(** ** Order of delivery *)

Lemma fire_run (f : Firing) m :
  fire f m =
  let '(flags, ts, bus, n) := f in
  HandleAudioInput flags ts bus n m.
Proof. destruct f as [[[flags ts] bus] n]. reflexivity. Qed.

(** X4: while the object's channel is open, a run of firings appends to
    its queue one buffer for each firing whose render succeeds, in firing
    order, and nothing for the firings whose render fails; nothing already
    queued is dropped or reordered and the rest of the runtime is
    untouched. *)
Theorem fire_all_enqueues_in_order (fs : list Firing) m h c :
  tsfn (this m) = Some h ->
  env m !! h = Some c ->
  released c = false ->
  env (fire_all fs m) =
  <[h := {| jsCallback := jsCallback c; released := false;
            pending := pending c
                       ++ rendered_by (audioUnit (this m)) fs (platform m) |}]>
    (env m).
Proof.
  revert m c. induction fs as [|f fs IH]; intros m c Ht Hc Hopen.
  - cbn. rewrite app_nil_r. symmetry. apply list_insert_id.
    rewrite Hc. f_equal. destruct c. cbn in *. now subst.
  - cbn [fire_all rendered_by]. rewrite fire_run.
    destruct f as [[[flags ts] bus] n]. rewrite HandleAudioInput_run.
    destruct (AudioUnitRender _ _ _ _ _ _ _) as [[status written] p].
    cbn [snd]. rewrite Ht. cbn [tsfn_bool]. rewrite andb_true_r.
    destruct (status =? noErr).
    + cbn [ThreadSafeFunction_NonBlockingCall]. rewrite Hc, Hopen.
      rewrite (IH _ (Channel_push (rendered_AudioData n written) c));
        cbn [this env platform].
      * rewrite list_insert_insert_eq. cbn. now rewrite <- app_assoc.
      * exact Ht.
      * apply list_lookup_insert_eq. eapply lookup_lt_Some, Hc.
      * exact Hopen.
    + erewrite IH; cbn [this env platform]; [reflexivity|eassumption ..].
Qed.

(** ** StartCapture, case by case *)

Lemma argument_test info :
  (Z.of_nat (length info) <? 1) || negb (IsFunction (info_at info 0)) = true \/
  exists fn : nat, info !! 0%nat = Some (JsFunction fn).
Proof.
  destruct info as [|v info']; [left; reflexivity|].
  destruct v; try (left; apply orb_true_iff; right; reflexivity).
  right. eexists. reflexivity.
Qed.

Lemma StartCapture_capturing info m :
  isCapturing (this m) = true ->
  StartCapture info m = (Thrown "Already capturing", m).
Proof.
  intros Hcap. unfold StartCapture. unfold_M. now rewrite Hcap.
Qed.

Lemma StartCapture_rejected info m :
  isCapturing (this m) = false ->
  (Z.of_nat (length info) <? 1) || negb (IsFunction (info_at info 0)) = true ->
  StartCapture info m = (Thrown "Callback function required", m).
Proof.
  intros Hidle Hbad. unfold StartCapture. unfold_M. now rewrite Hidle, Hbad.
Qed.

(** The three ways an accepted [startCapture] can end. *)
Lemma StartCapture_accepted_run info m (fn : nat) :
  isCapturing (this m) = false ->
  info !! 0%nat = Some (JsFunction fn) ->
  let '(status1, device, p1) :=
    AudioObjectGetPropertyData kAudioHardwarePropertyDefaultOutputDevice
      (outputDevice (this m)) (platform m) in
  let '(component, p2) := AudioComponentFindNext desc p1 in
  let '(status2, unit, p3) :=
    AudioComponentInstanceNew component (audioUnit (this m)) p2 in
  let e1 :=
    env m ++ [{| jsCallback := JsFunction fn; released := false; pending := [] |}] in
  let t1 :=
    set_outputDevice device (set_tsfn (Some (length (env m))) (this m)) in
  if status1 =? noErr then
    if status2 =? noErr then
      fst (StartCapture info m) = Returned JsUndefined /\
      this (snd (StartCapture info m)) = set_isCapturing true (set_audioUnit unit t1) /\
      env (snd (StartCapture info m)) = e1
    else
      StartCapture info m =
      (Thrown "Failed to create audio unit",
       {| this := set_audioUnit unit t1; platform := p3; env := e1 |})
  else
    StartCapture info m =
    (Thrown "Failed to get default output device",
     {| this := t1; platform := p1; env := e1 |}).
Proof.
  intros Hidle Harg.
  destruct (callback_argument_accepted info fn Harg) as [Hok Hfn].
  unfold StartCapture. unfold_M. rewrite Hidle, Hok, Hfn. cbn.
  destruct (AudioObjectGetPropertyData _ _ _) as [[status1 device] p1]. cbn.
  destruct (AudioComponentFindNext _ _) as [component p2] eqn:Hfind.
  destruct (AudioComponentInstanceNew _ _ _) as [[status2 unit] p3] eqn:Hnew.
  cbn. destruct (status1 =? noErr); cbn; [|reflexivity].
  rewrite Hfind. cbn. rewrite Hnew. cbn.
  destruct (status2 =? noErr); cbn; [|reflexivity].
  repeat platform_step. cbn. repeat split.
Qed.

(** X5: a [startCapture] without arguments, or whose first argument is
    not a function, throws "Callback function required" from an idle
    session and does nothing else: no platform call is made and no
    channel is created. *)
Theorem StartCapture_invalid_argument info m :
  isCapturing (this m) = false ->
  (forall fn : nat, info !! 0%nat <> Some (JsFunction fn)) ->
  StartCapture info m = (Thrown "Callback function required", m).
Proof.
  intros Hidle Hnone. apply StartCapture_rejected; [assumption|].
  destruct (argument_test info) as [Hbad|[fn Hfn]]; [assumption|].
  now destruct (Hnone fn).
Qed.

(** X6: when an accepted [startCapture] returns, it returns [undefined],
    both checked statuses were [noErr], and the object holds the device
    the query wrote, the unit the platform created, a new handle and the
    capturing flag; the runtime has exactly one more channel, open, empty
    and bound to the callback, after the channels it had. *)
Theorem StartCapture_success_state info m (fn : nat) (v : JsValue) :
  isCapturing (this m) = false ->
  info !! 0%nat = Some (JsFunction fn) ->
  fst (StartCapture info m) = Returned v ->
  let '(status1, device, p1) :=
    AudioObjectGetPropertyData kAudioHardwarePropertyDefaultOutputDevice
      (outputDevice (this m)) (platform m) in
  let '(component, p2) := AudioComponentFindNext desc p1 in
  let '(status2, unit, p3) :=
    AudioComponentInstanceNew component (audioUnit (this m)) p2 in
  v = JsUndefined /\ status1 = noErr /\ status2 = noErr /\
  this (snd (StartCapture info m)) =
    {| outputDevice := device; audioUnit := unit;
       tsfn := Some (length (env m)); isCapturing := true |} /\
  env (snd (StartCapture info m)) =
    env m ++ [{| jsCallback := JsFunction fn; released := false; pending := [] |}].
Proof.
  intros Hidle Harg.
  pose proof (StartCapture_accepted_run info m fn Hidle Harg) as Hrun.
  destruct (AudioObjectGetPropertyData _ _ _) as [[status1 device] p1].
  destruct (AudioComponentFindNext _ _) as [component p2].
  destruct (AudioComponentInstanceNew _ _ _) as [[status2 unit] p3].
  cbv beta iota zeta in Hrun.
  destruct (status1 =? noErr) eqn:H1; [|rewrite Hrun; discriminate].
  destruct (status2 =? noErr) eqn:H2; [|rewrite Hrun; discriminate].
  destruct Hrun as (Hret & Hthis & Henv). rewrite Hret. intros [= <-].
  apply Z.eqb_eq in H1, H2. repeat split; assumption.
Qed.

(** X7: when the device query fails, [startCapture] stops there: the
    platform has seen that one call and nothing else (no unit is looked
    up or created), the unit pointer is what it was, and the object keeps
    whatever the query wrote as its device. *)
Theorem StartCapture_device_failure_stops info m (fn : nat) :
  isCapturing (this m) = false ->
  info !! 0%nat = Some (JsFunction fn) ->
  fst (fst (AudioObjectGetPropertyData kAudioHardwarePropertyDefaultOutputDevice
              (outputDevice (this m)) (platform m))) <> noErr ->
  fst (StartCapture info m) = Thrown "Failed to get default output device" /\
  platform (snd (StartCapture info m)) =
    snd (AudioObjectGetPropertyData kAudioHardwarePropertyDefaultOutputDevice
           (outputDevice (this m)) (platform m)) /\
  audioUnit (this (snd (StartCapture info m))) = audioUnit (this m) /\
  outputDevice (this (snd (StartCapture info m))) =
    snd (fst (AudioObjectGetPropertyData kAudioHardwarePropertyDefaultOutputDevice
                (outputDevice (this m)) (platform m))).
Proof.
  intros Hidle Harg.
  pose proof (StartCapture_accepted_run info m fn Hidle Harg) as Hrun.
  destruct (AudioObjectGetPropertyData _ _ _) as [[status1 device] p1].
  destruct (AudioComponentFindNext _ _) as [component p2].
  destruct (AudioComponentInstanceNew _ _ _) as [[status2 unit] p3].
  cbv beta iota zeta in Hrun. cbn [fst snd]. intros Hfail.
  apply Z.eqb_neq in Hfail. rewrite Hfail in Hrun.
  rewrite Hrun. repeat split.
Qed.

(** X8: when the unit cannot be created, [startCapture] stops after the
    device query, the component lookup and the creation attempt: none of
    the seven configuration calls is made, and the object keeps the
    resolved device and whatever the creation wrote as its unit. *)
Theorem StartCapture_unit_failure_stops info m (fn : nat) :
  isCapturing (this m) = false ->
  info !! 0%nat = Some (JsFunction fn) ->
  let '(status1, device, p1) :=
    AudioObjectGetPropertyData kAudioHardwarePropertyDefaultOutputDevice
      (outputDevice (this m)) (platform m) in
  let '(component, p2) := AudioComponentFindNext desc p1 in
  let '(status2, unit, p3) :=
    AudioComponentInstanceNew component (audioUnit (this m)) p2 in
  status1 = noErr ->
  status2 <> noErr ->
  fst (StartCapture info m) = Thrown "Failed to create audio unit" /\
  platform (snd (StartCapture info m)) = p3 /\
  outputDevice (this (snd (StartCapture info m))) = device /\
  audioUnit (this (snd (StartCapture info m))) = unit.
Proof.
  intros Hidle Harg.
  pose proof (StartCapture_accepted_run info m fn Hidle Harg) as Hrun.
  destruct (AudioObjectGetPropertyData _ _ _) as [[status1 device] p1].
  destruct (AudioComponentFindNext _ _) as [component p2].
  destruct (AudioComponentInstanceNew _ _ _) as [[status2 unit] p3].
  cbv beta iota zeta in Hrun. intros -> Hfail. apply Z.eqb_neq in Hfail.
  rewrite Hfail in Hrun. cbn [Z.eqb noErr] in Hrun. rewrite Hrun. repeat split.
Qed.

(** X9: from an idle session, whatever the arguments and the platform,
    the session is capturing after [startCapture] exactly when the call
    returned [undefined] instead of throwing, and it never returns
    anything else. *)
Theorem StartCapture_returns_iff_capturing info m :
  isCapturing (this m) = false ->
  (fst (StartCapture info m) = Returned JsUndefined <->
   isCapturing (this (snd (StartCapture info m))) = true) /\
  (forall v, fst (StartCapture info m) = Returned v -> v = JsUndefined).
Proof.
  intros Hidle.
  destruct (argument_test info) as [Hbad|[fn Harg]].
  - rewrite (StartCapture_rejected info m Hidle Hbad). cbn. rewrite Hidle.
    split; [split|]; discriminate.
  - pose proof (StartCapture_accepted_run info m fn Hidle Harg) as Hrun.
    destruct (AudioObjectGetPropertyData _ _ _) as [[status1 device] p1].
    destruct (AudioComponentFindNext _ _) as [component p2].
    destruct (AudioComponentInstanceNew _ _ _) as [[status2 unit] p3].
    cbv beta iota zeta in Hrun.
    destruct (status1 =? noErr);
      [destruct (status2 =? noErr)|].
    + destruct Hrun as (Hret & Hthis & _). rewrite Hret, Hthis. cbn.
      split; [split; reflexivity|]. now intros v [= <-].
    + rewrite Hrun. cbn. rewrite Hidle. split; [split|]; discriminate.
    + rewrite Hrun. cbn. rewrite Hidle. split; [split|]; discriminate.
Qed.

(** ** StopCapture, twice and in detail *)

Lemma StopCapture_idle info m :
  isCapturing (this m) = false ->
  StopCapture info m = (Returned JsUndefined, m).
Proof.
  intros Hidle. unfold StopCapture. unfold_M. now rewrite Hidle.
Qed.

Lemma StopCapture_ends_idle info m :
  isCapturing (this (snd (StopCapture info m))) = false.
Proof.
  destruct (isCapturing (this m)) eqn:Hcap.
  - now destruct (StopCapture_run info m Hcap) as [-> _].
  - now rewrite StopCapture_idle.
Qed.

(** X10: after [stopCapture] the session is idle, whatever state it was
    in and whatever the teardown calls returned, and a second
    [stopCapture] changes nothing at all. *)
Theorem StopCapture_idempotent info info' m :
  isCapturing (this (snd (StopCapture info m))) = false /\
  StopCapture info' (snd (StopCapture info m))
    = (Returned JsUndefined, snd (StopCapture info m)).
Proof.
  split; [apply StopCapture_ends_idle|].
  apply StopCapture_idle, StopCapture_ends_idle.
Qed.

(** X11: stopping a capturing session stops, uninitialises and disposes
    the unit, in that order and each exactly once, unless the unit
    pointer is NULL, in which case the platform is not called at all;
    the object keeps its device, its (now stale) unit pointer and its
    handle, and only the capturing flag is cleared. *)
Theorem StopCapture_teardown info m :
  isCapturing (this m) = true ->
  this (snd (StopCapture info m)) =
    {| outputDevice := outputDevice (this m); audioUnit := audioUnit (this m);
       tsfn := tsfn (this m); isCapturing := false |} /\
  (audioUnit (this m) = 0 -> platform (snd (StopCapture info m)) = platform m) /\
  (audioUnit (this m) <> 0 ->
   platform (snd (StopCapture info m)) =
     snd (AudioComponentInstanceDispose (audioUnit (this m))
            (snd (AudioUnitUninitialize (audioUnit (this m))
                    (snd (AudioOutputUnitStop (audioUnit (this m))
                            (platform m))))))).
Proof.
  intros Hcap. split; [now destruct (StopCapture_run info m Hcap) as [-> _]|].
  unfold StopCapture. unfold_M. rewrite Hcap. cbn.
  split; intros Hunit.
  - rewrite Hunit. cbn. now destruct (tsfn_bool (tsfn (this m))).
  - apply Z.eqb_neq in Hunit. rewrite Hunit. cbn.
    destruct (AudioOutputUnitStop _ _) as [s1 p1]. cbn.
    destruct (AudioUnitUninitialize _ _) as [s2 p2]. cbn.
    destruct (AudioComponentInstanceDispose _ _) as [s3 p3]. cbn.
    now destruct (tsfn_bool (tsfn (this m))).
Qed.

(** ** Invariants of the object's life *)

Lemma after_event_invariant (e : Event) m :
  capturing_channel_open m -> capturing_channel_open (after_event e m).
Proof.
  intros Hopen. destruct e as [info|info|info|f]; cbn [after_event].
  - assumption.
  - destruct (isCapturing (this m)) eqn:Hcap.
    { now rewrite StartCapture_capturing. }
    destruct (argument_test info) as [Hbad|[fn Harg]].
    { now rewrite StartCapture_rejected. }
    pose proof (StartCapture_accepted_run info m fn Hcap Harg) as Hrun.
    pose proof (New_opens (JsFunction fn) (env m)) as Hnew. cbn in Hnew.
    destruct (AudioObjectGetPropertyData _ _ _) as [[status1 device] p1].
    destruct (AudioComponentFindNext _ _) as [component p2].
    destruct (AudioComponentInstanceNew _ _ _) as [[status2 unit] p3].
    cbv beta iota zeta in Hrun.
    destruct (status1 =? noErr); [destruct (status2 =? noErr)|].
    + destruct Hrun as (_ & Hthis & Henv).
      unfold capturing_channel_open. rewrite Hthis, Henv. cbn.
      intros _. eexists _, _. repeat split; [exact Hnew|reflexivity ..].
    + rewrite Hrun. unfold capturing_channel_open. cbn.
      rewrite Hcap. discriminate.
    + rewrite Hrun. unfold capturing_channel_open. cbn.
      rewrite Hcap. discriminate.
  - destruct (isCapturing (this m)) eqn:Hcap.
    + destruct (StopCapture_run info m Hcap) as [Hthis _].
      unfold capturing_channel_open. rewrite Hthis. cbn. discriminate.
    + now rewrite StopCapture_idle.
  - destruct (fire_keeps f m) as (Hthis & _ & Hkeep).
    unfold capturing_channel_open. rewrite Hthis.
    intros Hcap. destruct (Hopen Hcap) as (h & c & Ht & Hc & Hrel & Hfn).
    destruct (Hkeep h c Hc) as (c' & Hc' & Hcb & Hrel').
    exists h, c'. repeat split; [assumption|assumption|congruence|congruence].
Qed.

Lemma after_events_invariant (es : list Event) m :
  capturing_channel_open m -> capturing_channel_open (after_events es m).
Proof.
  revert m. induction es as [|e es IH]; intros m Hopen; [assumption|].
  cbn [after_events]. now apply IH, after_event_invariant.
Qed.

(** X14: at every point of an object's life, after any sequence of
    method calls and callback firings on any platform, a capturing
    session holds a handle to a channel of the runtime that is open and
    bound to a function. *)
Theorem capturing_session_owns_open_channel
    (es : list Event) (outputDevice0 : AudioDeviceID) (audioUnit0 : AudioUnit)
    (p : P) (e0 : NapiEnv) :
  capturing_channel_open
    (after_events es
       {| this := AudioCapture_new outputDevice0 audioUnit0;
          platform := p; env := e0 |}).
Proof.
  apply after_events_invariant. intros Hcap. discriminate.
Qed.

Lemma after_event_stranded (e : Event) (h : nat) (cb : JsValue) m :
  stranded h cb m -> stranded h cb (after_event e m).
Proof.
  intros [(c & Hc & Hrel & Hcb) Hheld].
  destruct e as [info|info|info|f]; cbn [after_event].
  - unfold RequestPermission, ret. cbn [snd].
    cbn [snd]; split; [exists c; repeat split; assumption|].
      intros Ht. specialize (Hheld Ht). congruence.
  - destruct (isCapturing (this m)) eqn:Hcap.
    { rewrite StartCapture_capturing by assumption. cbn [snd]; split; [exists c; repeat split; assumption|].
      intros Ht. specialize (Hheld Ht). congruence. }
    destruct (argument_test info) as [Hbad|[fn Harg]].
    { rewrite StartCapture_rejected by assumption. cbn [snd]; split; [exists c; repeat split; assumption|].
      intros Ht. specialize (Hheld Ht). congruence. }
    pose proof (lookup_lt_Some _ _ _ Hc) as Hlt.
    assert (Hc' : forall x : Channel, (env m ++ [x]) !! h = Some c)
      by (intros x; now rewrite lookup_app_l).
    pose proof (StartCapture_accepted_run info m fn Hcap Harg) as Hrun.
    destruct (AudioObjectGetPropertyData _ _ _) as [[status1 device] p1].
    destruct (AudioComponentFindNext _ _) as [component p2].
    destruct (AudioComponentInstanceNew _ _ _) as [[status2 unit] p3].
    cbv beta iota zeta in Hrun.
    destruct (status1 =? noErr); [destruct (status2 =? noErr)|].
    + destruct Hrun as (_ & Hthis & Henv). unfold stranded.
      rewrite Hthis, Henv. cbn. split; [exists c; repeat split; auto|].
      intros [= Heq]. lia.
    + rewrite Hrun. unfold stranded. cbn. split; [exists c; repeat split; auto|].
      intros [= Heq]. lia.
    + rewrite Hrun. unfold stranded. cbn. split; [exists c; repeat split; auto|].
      intros [= Heq]. lia.
  - destruct (isCapturing (this m)) eqn:Hcap.
    + destruct (StopCapture_run info m Hcap) as [Hthis Henv].
      unfold stranded. rewrite Hthis, Henv. cbn. split; [|reflexivity].
      exists c. repeat split; try assumption.
      destruct (tsfn (this m)) as [h'|] eqn:Ht; [|assumption]. cbn.
      rewrite list_lookup_alter_ne; [assumption|].
      intros ->. specialize (Hheld eq_refl). discriminate.
    + rewrite StopCapture_idle by assumption. cbn [snd]; split; [exists c; repeat split; assumption|].
      intros Ht. specialize (Hheld Ht). congruence.
  - destruct (fire_keeps f m) as (Hthis & _ & Hkeep).
    destruct (Hkeep h c Hc) as (c' & Hc' & Hcb' & Hrel').
    unfold stranded. rewrite Hthis. split; [|assumption].
    exists c'. repeat split; [assumption|congruence|congruence].
Qed.

(** X16: the channel an accepted but throwing [startCapture] created
    stays open for the rest of the object's life: no later call of any
    method and no firing of the callback ever closes it. *)
Theorem failed_start_channel_stays_open
    info m (fn : nat) (msg : string) (es : list Event) :
  isCapturing (this m) = false ->
  info !! 0%nat = Some (JsFunction fn) ->
  fst (StartCapture info m) = Thrown msg ->
  exists c,
    env (after_events es (snd (StartCapture info m))) !! length (env m) = Some c /\
    released c = false /\ jsCallback c = JsFunction fn.
Proof.
  intros Hidle Harg Hthrown.
  assert (Hstart : stranded (length (env m)) (JsFunction fn)
                     (snd (StartCapture info m))).
  { pose proof (StartCapture_accepted_run info m fn Hidle Harg) as Hrun.
    pose proof (New_opens (JsFunction fn) (env m)) as Hnew. cbn in Hnew.
    destruct (AudioObjectGetPropertyData _ _ _) as [[status1 device] p1].
    destruct (AudioComponentFindNext _ _) as [component p2].
    destruct (AudioComponentInstanceNew _ _ _) as [[status2 unit] p3].
    cbv beta iota zeta in Hrun.
    destruct (status1 =? noErr); [destruct (status2 =? noErr)|].
    - destruct Hrun as (Hret & _). rewrite Hret in Hthrown. discriminate.
    - rewrite Hrun. split; cbn; [|auto].
      exists {| jsCallback := JsFunction fn; released := false; pending := [] |}.
      repeat split. exact Hnew.
    - rewrite Hrun. split; cbn; [|auto].
      exists {| jsCallback := JsFunction fn; released := false; pending := [] |}.
      repeat split. exact Hnew. }
  clear Hthrown. revert Hstart. generalize (snd (StartCapture info m)).
  induction es as [|e es IH]; intros m' Hs; [exact (proj1 Hs)|].
  cbn [after_events]. apply IH. now apply after_event_stranded.
Qed.

End Properties.

(** * Concrete runs on the scripted platform *)

(** [startCapture(f)] on a machine without a default output device: the
    call throws, the session is idle, channel 0 stays open. *)
Lemma StartCapture_failure_keeps_channel_witness :
  device_status no_device <> noErr /\
  fst (StartCapture (CA := scripted no_device) [JsFunction 0] fresh_session)
    = Thrown "Failed to get default output device" /\
  isCapturing
    (this (snd (StartCapture (CA := scripted no_device) [JsFunction 0] fresh_session)))
    = false /\
  tsfn (this (snd (StartCapture (CA := scripted no_device) [JsFunction 0] fresh_session)))
    = Some 0%nat /\
  env (snd (StartCapture (CA := scripted no_device) [JsFunction 0] fresh_session)) !! 0%nat
    = Some {| jsCallback := JsFunction 0; released := false; pending := [] |}.
Proof.
  split; [discriminate|]. split; [reflexivity|].
  apply (StartCapture_failure_keeps_channel
           (CA := scripted no_device) [JsFunction 0] fresh_session 0
           "Failed to get default output device").
  - reflexivity.
  - reflexivity.
  - reflexivity.
Defined.

(** [startCapture(f)] where all seven negotiation steps fail: the call
    returns and the session is capturing. *)
Lemma StartCapture_ignores_negotiation_status_witness :
  (forall prop scope, property_status failing_negotiation prop scope <> noErr) /\
  initialize_status failing_negotiation <> noErr /\
  start_status failing_negotiation <> noErr /\
  fst (StartCapture (CA := scripted failing_negotiation) [JsFunction 0] fresh_session)
    = Returned JsUndefined /\
  isCapturing
    (this (snd (StartCapture (CA := scripted failing_negotiation)
                  [JsFunction 0] fresh_session)))
    = true.
Proof.
  split; [intros prop scope; discriminate|].
  split; [discriminate|]. split; [discriminate|].
  exact (StartCapture_ignores_negotiation_status
           (CA := scripted failing_negotiation) [JsFunction 0] fresh_session 0
           eq_refl eq_refl eq_refl eq_refl).
Defined.

(** A quantum of 512 frames: 4096 bytes allocated, 2048 declared. *)
Lemma scratch_buffer_declares_half_the_region_witness :
  0 < 512 < 2 ^ 30 /\
  mBytesPerFrame streamFormat = 8 /\
  Z.of_nat (length (mData (mBuffers0 (scratch_bufferList 512)))) = 512 * 2 * sizeof_Float32 /\
  mDataByteSize (mBuffers0 (scratch_bufferList 512)) = 512 * 4 /\
  mDataByteSize (mBuffers0 (scratch_bufferList 512)) <> 512 * mBytesPerFrame streamFormat.
Proof.
  split; [lia|]. apply (scratch_buffer_declares_half_the_region 512). lia.
Defined.

(** C4 as stated fails where [frameCount * 2] leaves [UInt32]: a
    successful render of 2^31 frames on an open channel makes the consumer
    receive an [ArrayBuffer] of byte length 0, not 2^31 * 8. *)
Lemma HandleAudioInput_frame_size_wraps :
  fst (HandleAudioInput (CA := scripted silent) 0 0 1 (2 ^ 31) live_session) = noErr /\
  tsfn (this live_session) = Some 0%nat /\
  env live_session !! 0%nat
    = Some {| jsCallback := JsFunction 0; released := false; pending := [] |} /\
  consumer_calls <$>
    (env (snd (HandleAudioInput (CA := scripted silent) 0 0 1 (2 ^ 31) live_session))
       !! 0%nat)
    = Some [(JsFunction 0, [JsArrayBuffer [] 0])] /\
  0 <> 2 ^ 31 * 8.
Proof.
  repeat split; try reflexivity. discriminate.
Defined.

(** Two frames rendered on the live session: 16 bytes delivered. *)
Lemma HandleAudioInput_delivers_frame_witness :
  exists audioData,
    env (snd (HandleAudioInput (CA := scripted healthy) 0 0 1 2 live_session)) !! 0%nat
      = Some (Channel_push audioData
                {| jsCallback := JsFunction 0; released := false; pending := [] |}) /\
    callback audioData = JsArrayBuffer (data audioData) (2 * 2 * 4) /\
    Z.of_nat (length (data audioData)) = 2 * 8 /\
    (let written := frame_bytes ++ frame_bytes in
     data audioData = region_write (tempBuffer_new 2) written /\
     (Z.of_nat (length written) = 2 * 8 -> data audioData = written)).
Proof.
  apply (HandleAudioInput_delivers_frame (CA := scripted healthy)
           0 0 1 2 live_session 0
           {| jsCallback := JsFunction 0; released := false; pending := [] |}).
  - lia.
  - reflexivity.
  - reflexivity.
  - reflexivity.
  - reflexivity.
Defined.


(** A second [startCapture], without arguments, on the live session. *)
Lemma StartCapture_already_capturing_witness :
  isCapturing (this live_session) = true /\
  StartCapture (CA := scripted healthy) [] live_session
    = (Thrown "Already capturing", live_session).
Proof.
  split; [reflexivity|].
  apply (StartCapture_already_capturing (CA := scripted healthy) [] live_session).
  reflexivity.
Defined.


(** [stopCapture] on the fresh object. *)
Lemma StopCapture_idle_noop_never_fails_witness :
  isCapturing (this fresh_session) = false /\
  StopCapture (CA := scripted healthy) [] fresh_session
    = (Returned JsUndefined, fresh_session).
Proof.
  split; [reflexivity|].
  apply (proj1 (StopCapture_idle_noop_never_fails
                  (CA := scripted healthy) [] fresh_session)).
  reflexivity.
Defined.

(** A failed render on the live session. *)
Lemma HandleAudioInput_failed_render_drops_witness :
  render_status failing_render <> noErr /\
  env (snd (HandleAudioInput (CA := scripted failing_render) 0 0 1 512 live_session))
    = env live_session /\
  this (snd (HandleAudioInput (CA := scripted failing_render) 0 0 1 512 live_session))
    = this live_session.
Proof.
  split; [discriminate|].
  apply (HandleAudioInput_failed_render_drops
           (CA := scripted failing_render) 0 0 1 512 live_session).
  discriminate.
Defined.

(** [startCapture()] without a callback: rejected for the argument on the
    fresh object, for the state on the live one. *)
Lemma StartCapture_state_checked_first_witness :
  fst (StartCapture (CA := scripted healthy) [] fresh_session)
    = Thrown "Callback function required" /\
  isCapturing (this fresh_session) = false /\
  isCapturing (this live_session) = true /\
  fst (StartCapture (CA := scripted healthy) [] live_session)
    = Thrown "Already capturing".
Proof.
  split; [reflexivity|]. split.
  - apply (proj2 (StartCapture_state_checked_first
                    (CA := scripted healthy) [] fresh_session)).
    reflexivity.
  - split; [reflexivity|].
    apply (proj1 (StartCapture_state_checked_first
                    (CA := scripted healthy) [] live_session)).
    reflexivity.
Defined.

(** ** Concrete runs for the further properties *)

(** Three frames rendered on the live session: 24 bytes. *)
Lemma HandleAudioInput_buffer_size_witness :
  exists audioData,
    env (snd (HandleAudioInput (CA := scripted healthy) 0 0 1 3 live_session)) !! 0%nat
      = Some (Channel_push audioData
                {| jsCallback := JsFunction 0; released := false; pending := [] |}) /\
    size audioData = 8 * (3 mod 2 ^ 31) /\
    size audioData mod 8 = 0 /\
    0 <= size audioData < 2 ^ 34 /\
    Z.of_nat (length (data audioData)) = size audioData.
Proof.
  apply (HandleAudioInput_buffer_size (CA := scripted healthy)
           0 0 1 3 live_session 0
           {| jsCallback := JsFunction 0; released := false; pending := [] |});
    reflexivity.
Defined.

(** A one-frame and a two-frame quantum, delivered in that order. *)
Lemma fire_all_enqueues_in_order_witness :
  tsfn (this live_session) = Some 0%nat /\
  env (fire_all (CA := scripted healthy) [(0, 0, 1, 1); (0, 0, 1, 2)] live_session) =
  [{| jsCallback := JsFunction 0; released := false;
      pending := [ {| data := frame_bytes; size := 8 |};
                   {| data := frame_bytes ++ frame_bytes; size := 16 |} ] |}].
Proof.
  split; [reflexivity|].
  apply (fire_all_enqueues_in_order (CA := scripted healthy)
           [(0, 0, 1, 1); (0, 0, 1, 2)] live_session 0
           {| jsCallback := JsFunction 0; released := false; pending := [] |});
    reflexivity.
Defined.

(** [startCapture(5)] and [startCapture()] on the fresh object. *)
Lemma StartCapture_invalid_argument_witness :
  StartCapture (CA := scripted healthy) [JsNumber 5] fresh_session
    = (Thrown "Callback function required", fresh_session) /\
  StartCapture (CA := scripted healthy) [] fresh_session
    = (Thrown "Callback function required", fresh_session).
Proof.
  split.
  - apply (StartCapture_invalid_argument (CA := scripted healthy)
             [JsNumber 5] fresh_session); [reflexivity|discriminate].
  - apply (StartCapture_invalid_argument (CA := scripted healthy)
             [] fresh_session); [reflexivity|discriminate].
Defined.

(** [startCapture(f)] on the healthy machine. *)
Lemma StartCapture_success_state_witness :
  this live_session =
    {| outputDevice := 42; audioUnit := 1000; tsfn := Some 0%nat;
       isCapturing := true |} /\
  env live_session =
    [{| jsCallback := JsFunction 0; released := false; pending := [] |}].
Proof.
  exact (proj2 (proj2 (proj2
           (StartCapture_success_state (CA := scripted healthy)
              [JsFunction 0] fresh_session 0 JsUndefined
              eq_refl eq_refl eq_refl)))).
Defined.

(** Without a device the platform sees the query and nothing else. *)
Lemma StartCapture_device_failure_stops_witness :
  device_status no_device <> noErr /\
  platform (snd (StartCapture (CA := scripted no_device) [JsFunction 0] fresh_session))
    = ["AudioObjectGetPropertyData"%string] /\
  audioUnit (this (snd (StartCapture (CA := scripted no_device)
                          [JsFunction 0] fresh_session))) = 0.
Proof.
  split; [discriminate|].
  destruct (StartCapture_device_failure_stops (CA := scripted no_device)
              [JsFunction 0] fresh_session 0 eq_refl eq_refl)
    as (_ & Hplatform & Hunit & _).
  - discriminate.
  - split; [exact Hplatform|exact Hunit].
Defined.

(** Without a unit the platform sees three calls and no configuration. *)
Lemma StartCapture_unit_failure_stops_witness :
  instance_status no_unit <> noErr /\
  fst (StartCapture (CA := scripted no_unit) [JsFunction 0] fresh_session)
    = Thrown "Failed to create audio unit" /\
  platform (snd (StartCapture (CA := scripted no_unit) [JsFunction 0] fresh_session))
    = ["AudioObjectGetPropertyData"; "AudioComponentFindNext";
       "AudioComponentInstanceNew"]%string /\
  outputDevice (this (snd (StartCapture (CA := scripted no_unit)
                             [JsFunction 0] fresh_session))) = 42 /\
  audioUnit (this (snd (StartCapture (CA := scripted no_unit)
                          [JsFunction 0] fresh_session))) = 0.
Proof.
  split; [discriminate|].
  apply (StartCapture_unit_failure_stops (CA := scripted no_unit)
           [JsFunction 0] fresh_session 0 eq_refl eq_refl eq_refl).
  discriminate.
Defined.

(** The fresh object with and without a device. *)
Lemma StartCapture_returns_iff_capturing_witness :
  isCapturing (this fresh_session) = false /\
  (fst (StartCapture (CA := scripted healthy) [JsFunction 0] fresh_session)
     = Returned JsUndefined <->
   isCapturing (this (snd (StartCapture (CA := scripted healthy)
                             [JsFunction 0] fresh_session))) = true) /\
  (fst (StartCapture (CA := scripted no_device) [JsFunction 0] fresh_session)
     = Returned JsUndefined <->
   isCapturing (this (snd (StartCapture (CA := scripted no_device)
                             [JsFunction 0] fresh_session))) = true).
Proof.
  split; [reflexivity|]. split.
  - apply (StartCapture_returns_iff_capturing (CA := scripted healthy)
             [JsFunction 0] fresh_session). reflexivity.
  - apply (StartCapture_returns_iff_capturing (CA := scripted no_device)
             [JsFunction 0] fresh_session). reflexivity.
Defined.

(** Stopping the live session: three teardown calls after the ten of
    the start. *)
Lemma StopCapture_teardown_witness :
  isCapturing (this live_session) = true /\
  this (snd (StopCapture (CA := scripted healthy) [] live_session)) =
    {| outputDevice := 42; audioUnit := 1000; tsfn := Some 0%nat;
       isCapturing := false |} /\
  platform (snd (StopCapture (CA := scripted healthy) [] live_session)) =
    platform live_session
    ++ ["AudioOutputUnitStop"; "AudioUnitUninitialize";
        "AudioComponentInstanceDispose"]%string.
Proof.
  split; [reflexivity|].
  destruct (StopCapture_teardown (CA := scripted healthy) [] live_session eq_refl)
    as (Hthis & _ & Hplatform).
  split; [exact Hthis|]. apply Hplatform. discriminate.
Defined.

(** A start without a device, then a stop, a firing, another start and
    another stop: channel 0 is still open. *)
Lemma failed_start_channel_stays_open_witness :
  fst (StartCapture (CA := scripted no_device) [JsFunction 0] fresh_session)
    = Thrown "Failed to get default output device" /\
  exists c,
    env (after_events (CA := scripted no_device)
           [Call_stopCapture []; Render (0, 0, 1, 4);
            Call_startCapture [JsFunction 1]; Call_stopCapture []]
           (snd (StartCapture (CA := scripted no_device)
                   [JsFunction 0] fresh_session))) !! 0%nat = Some c /\
    released c = false /\ jsCallback c = JsFunction 0.
Proof.
  split; [reflexivity|].
  apply (failed_start_channel_stays_open (CA := scripted no_device)
           [JsFunction 0] fresh_session 0
           "Failed to get default output device"); reflexivity.
Defined.
